(** * note-db-query: typed row accessors and the sync/async database facades

    A shallow embedding of [query.ts] (classes [Rows] and [Row]), [sync.ts]
    ([SyncDatabase]) and [async.ts] ([AsyncDatabase]), followed by the
    properties of the row-value coercion contract and of the two facades. *)

From Stdlib Require Import ZArith List String Bool Lia QArith Qpower.
From Stdlib Require Import Init.Byte.
From Stdlib Require Import Floats.SpecFloat.
Import ListNotations.
Local Open Scope string_scope.
Local Open Scope Z_scope.

(** ** JavaScript values

    A column value has the static type [unknown]: any JavaScript value can sit
    in a row.  Numbers are IEEE-754 doubles ([spec_float]: signed zeros,
    infinities, NaN and [(-1)^s * m * 2^e]); objects carry the location that
    gives them their identity. *)

Inductive value : Type :=
| VUndefined
| VNull
| VBoolean (b : bool)
| VNumber (n : spec_float)
| VBigInt (z : Z)
| VString (s : string)
| VSymbol (id : positive)
| VUint8Array (loc : positive) (bytes : list Byte.byte)
| VObject (loc : positive)
| VFunction (loc : positive).

(** What can be thrown.  [JsError msg] is an [Error] object made by
    [new Error(msg)] in this library; [RangeError] is what the built-in
    [BigInt] raises; [Foreign v] is whatever value an adapter threw or
    rejected with (never the same object as a library-made error). *)
Inductive exn : Type :=
| JsError (message : String.string)
| RangeError
| Foreign (payload : value).

(** The completion of an expression: a value, or an abrupt [throw] of an [E].
    The library throws [exn]; an adapter throws any [value]. *)
Inductive completion (E A : Type) : Type :=
| Normal (a : A)
| Throw (e : E).
Arguments Normal {E A} a.
Arguments Throw {E A} e.

(** *** Built-in operators used by the accessors *)

(** The [typeof] operator. *)
Definition typeof (v : value) : String.string :=
  match v with
  | VUndefined => "undefined"
  | VNull => "object"
  | VBoolean _ => "boolean"
  | VNumber _ => "number"
  | VBigInt _ => "bigint"
  | VString _ => "string"
  | VSymbol _ => "symbol"
  | VUint8Array _ _ => "object"
  | VObject _ => "object"
  | VFunction _ => "function"
  end.

(** [v instanceof Uint8Array]: only objects whose prototype chain reaches
    [Uint8Array.prototype]. *)
Definition instanceof_Uint8Array (v : value) : bool :=
  match v with
  | VUint8Array _ _ => true
  | _ => false
  end.

(** Strict equality of numbers: NaN differs from everything, the two zeros are
    equal. *)
Definition Number_equal (x y : spec_float) : bool := SFeqb x y.

(** The [===] operator (IsStrictlyEqual). *)
Definition strict_equal (x y : value) : bool :=
  match x, y with
  | VUndefined, VUndefined => true
  | VNull, VNull => true
  | VBoolean a, VBoolean b => Bool.eqb a b
  | VNumber a, VNumber b => Number_equal a b
  | VBigInt a, VBigInt b => Z.eqb a b
  | VString a, VString b => String.eqb a b
  | VSymbol a, VSymbol b => Pos.eqb a b
  | VUint8Array a _, VUint8Array b _ => Pos.eqb a b
  | VObject a, VObject b => Pos.eqb a b
  | VFunction a, VFunction b => Pos.eqb a b
  | _, _ => false
  end.

(** [x !== y]. *)
Definition strict_not_equal (x y : value) : bool := negb (strict_equal x y).

(** The integer a double stands for, when it stands for one:
    [(-1)^s * m * 2^e] with, for a negative exponent, [2^(-e)] dividing [m]. *)
Definition integral_value (n : spec_float) : option Z :=
  match n with
  | S754_zero _ => Some 0
  | S754_finite s m e =>
      if 0 <=? e then Some (cond_Zopp s (Z.pos m * 2 ^ e))
      else if Z.pos m mod 2 ^ (- e) =? 0
           then Some (cond_Zopp s (Z.pos m / 2 ^ (- e)))
           else None
  | S754_infinity _ => None
  | S754_nan => None
  end.

(** [Number.isInteger(n)]: finite and equal to its own truncation. *)
Definition Number_isInteger (n : spec_float) : bool :=
  match integral_value n with
  | Some _ => true
  | None => false
  end.

(** [BigInt(n)] on a number: the exact integer, or a [RangeError] when the
    number is not integral. *)
Definition BigInt (n : spec_float) : completion exn value :=
  match integral_value n with
  | Some z => Normal (VBigInt z)
  | None => Throw RangeError
  end.

(** ** [class Row] ([query.ts]) *)

Module Row.

Record t : Type := new { result : list value }.

(** [this.result[index]], [index] being the integer the argument denotes:
    the element, or [undefined] where the array has none (an index below zero
    or at or past the length). *)
Definition get (this : t) (index : Z) : value :=
  if index <? 0 then VUndefined
  else match nth_error (result this) (Z.to_nat index) with
       | Some v => v
       | None => VUndefined
       end.

Definition stringNullable (this : t) (index : Z) : completion exn value :=
  let value := get this index in
  if negb (String.eqb (typeof value) "string") && strict_not_equal value VNull
  then Throw (JsError "Not a string or null")
  else Normal value.

Definition string (this : t) (index : Z) : completion exn value :=
  let value := get this index in
  if negb (String.eqb (typeof value) "string")
  then Throw (JsError "Not a string")
  else Normal value.

Definition numberNullable (this : t) (index : Z) : completion exn value :=
  let value := get this index in
  if negb (String.eqb (typeof value) "number") && strict_not_equal value VNull
  then Throw (JsError "Not a number or null")
  else Normal value.

Definition number (this : t) (index : Z) : completion exn value :=
  let value := get this index in
  if negb (String.eqb (typeof value) "number")
  then Throw (JsError "Not a number")
  else Normal value.

(** In the two wide-integer accessors the first [if] narrows [value] to a
    number ([typeof value === "number"]) before [Number.isInteger] and
    [BigInt] see it: the [match] is that narrowing, [otherwise] is the code
    after the first [if]. *)
Definition bigintNullable (this : t) (index : Z) : completion exn value :=
  let value := get this index in
  let otherwise :=
    if negb (String.eqb (typeof value) "bigint") && strict_not_equal value VNull
    then Throw (JsError "Not an integer or null")
    else Normal value in
  match value with
  | VNumber n => if Number_isInteger n then BigInt n else otherwise
  | _ => otherwise
  end.

Definition bigint (this : t) (index : Z) : completion exn value :=
  let value := get this index in
  let otherwise :=
    if negb (String.eqb (typeof value) "bigint")
    then Throw (JsError "Not an integer")
    else Normal value in
  match value with
  | VNumber n => if Number_isInteger n then BigInt n else otherwise
  | _ => otherwise
  end.

Definition booleanNullable (this : t) (index : Z) : completion exn value :=
  let value := get this index in
  if negb (String.eqb (typeof value) "boolean") && strict_not_equal value VNull
  then Throw (JsError "Not a boolean or null")
  else Normal value.

Definition boolean (this : t) (index : Z) : completion exn value :=
  let value := get this index in
  if negb (String.eqb (typeof value) "boolean")
  then Throw (JsError "Not a boolean")
  else Normal value.

Definition bytesNullable (this : t) (index : Z) : completion exn value :=
  let value := get this index in
  if negb (instanceof_Uint8Array value) && strict_not_equal value VNull
  then Throw (JsError "Not an Uint8Array or null")
  else Normal value.

Definition bytes (this : t) (index : Z) : completion exn value :=
  let value := get this index in
  if negb (instanceof_Uint8Array value)
  then Throw (JsError "Not an Uint8Array")
  else Normal value.

End Row.

(** ** [class Rows] ([query.ts]) *)

Module Rows.

Record t : Type := new { result : list (list value) }.

Definition count (this : t) : Z := Z.of_nat (List.length (result this)).

(** The generator object that [rows[Symbol.iterator]()] returns.  It keeps
    [this] and where its body stands: not started, suspended at the [yield]
    with the array iterator of the [for...of] at [nextIndex], or completed. *)
Inductive GeneratorState : Type :=
| SuspendedStart
| SuspendedYield (nextIndex : nat)
| Completed.

Record Generator : Type :=
  mkGenerator { gen_this : t; gen_state : GeneratorState }.

(** [{ value, done }] as [next()] returns it. *)
Inductive IteratorResult : Type :=
| Yield (value : Row.t)
| Done.

Definition iterator (this : t) : Generator :=
  mkGenerator this SuspendedStart.

(** One turn of [for (const item of this.result) { yield new Row(item); }]
    with the array iterator at [k]. *)
Definition resume (g : Generator) (k : nat) : IteratorResult * Generator :=
  match nth_error (result (gen_this g)) k with
  | Some item => (Yield (Row.new item), mkGenerator (gen_this g) (SuspendedYield (S k)))
  | None => (Done, mkGenerator (gen_this g) Completed)
  end.

Definition next (g : Generator) : IteratorResult * Generator :=
  match gen_state g with
  | SuspendedStart => resume g 0
  | SuspendedYield k => resume g k
  | Completed => (Done, g)
  end.

(** A consumer that drains an iterator, as [for (const row of rows)] or
    [[...rows]] does: the rows in the order they were yielded.  [fuel] bounds
    the number of [next()] calls. *)
Fixpoint drain (fuel : nat) (g : Generator) : option (list Row.t) :=
  match fuel with
  | O => None
  | S fuel' =>
      match next g with
      | (Done, _) => Some []
      | (Yield row, g') =>
          match drain fuel' g' with
          | Some rows => Some (row :: rows)
          | None => None
          end
      end
  end.

(** [n] calls of [next()], results dropped: a consumer that stops early. *)
Fixpoint advance (n : nat) (g : Generator) : Generator :=
  match n with
  | O => g
  | S n' => advance n' (snd (next g))
  end.

End Rows.

(** ** Effects of the facades

    [World] is everything outside the library that an adapter call can read
    or change (the driver, the connection, the database).  A synchronous
    operation runs to completion; an asynchronous one is a promise, which the
    world settles. *)

Definition Sync (World E A : Type) : Type := World -> completion E A * World.

Inductive settled (E A : Type) : Type :=
| Fulfilled (a : A)
| Rejected (reason : E).
Arguments Fulfilled {E A} a.
Arguments Rejected {E A} reason.

Definition Promise (World E A : Type) : Type := World -> settled E A * World.

Section Effects.
Context {World : Type}.

Definition ret {E A} (a : A) : Sync World E A := fun w => (Normal a, w).

Definition throw {E A} (e : E) : Sync World E A := fun w => (Throw e, w).

Definition bind {E A B} (c : Sync World E A) (k : A -> Sync World E B)
  : Sync World E B :=
  fun w => match c w with
           | (Normal a, w') => k a w'
           | (Throw e, w') => (Throw e, w')
           end.

(** A call into caller-supplied code: what it throws is foreign to the
    library. *)
Definition call {A} (c : Sync World value A) : Sync World exn A :=
  fun w => match c w with
           | (Normal a, w') => (Normal a, w')
           | (Throw v, w') => (Throw (Foreign v), w')
           end.

(** [await p]: the body resumes with the value the promise is fulfilled
    with, or throws its rejection reason. *)
Definition await {E A} (p : Promise World E A) : Sync World E A :=
  fun w => match p w with
           | (Fulfilled a, w') => (Normal a, w')
           | (Rejected e, w') => (Throw e, w')
           end.

(** An [async] function: the promise it returns is fulfilled with what the
    body returns and rejected with what the body throws. *)
Definition async {E A} (body : Sync World E A) : Promise World E A :=
  fun w => match body w with
           | (Normal a, w') => (Fulfilled a, w')
           | (Throw e, w') => (Rejected e, w')
           end.

(** A promise of caller-supplied code, seen from the library. *)
Definition adopt {A} (p : Promise World value A) : Promise World exn A :=
  fun w => match p w with
           | (Fulfilled a, w') => (Fulfilled a, w')
           | (Rejected v, w') => (Rejected (Foreign v), w')
           end.
End Effects.

Notation "'let!' x ':=' c 'in' k" := (bind c (fun x => k))
  (at level 10, x name, c at level 100, k at level 200).

(** ** [sync.ts] *)

Module SyncAdapter.
Record t (World ExecuteResult : Type) : Type := mk {
  query : String.string -> list value -> Sync World value (list (list value));
  execute : String.string -> list value -> Sync World value ExecuteResult
}.
Arguments mk {World ExecuteResult}.
Arguments query {World ExecuteResult}.
Arguments execute {World ExecuteResult}.
End SyncAdapter.

Module SyncDatabase.
Section Methods.
Context {World ExecuteResult : Type}.

Record t : Type := new { adapter : SyncAdapter.t World ExecuteResult }.

(** [Row | null]: [None] is [null].  [result[0]] is read only past the
    length test, so the default of [nth] is never used. *)
Definition queryOne (this : t) (statement : String.string) (params : list value)
  : Sync World exn (option Row.t) :=
  let! result := call (SyncAdapter.query (adapter this) statement params) in
  if Z.of_nat (List.length result) <? 1 then ret None
  else ret (Some (Row.new (nth 0 result []))).

Definition queryOneOrThrow (this : t) (statement : String.string) (params : list value)
  : Sync World exn Row.t :=
  let! row := queryOne this statement params in
  match row with
  | None => throw (JsError "Query did not return any rows")
  | Some row => ret row
  end.

Definition query (this : t) (statement : String.string) (params : list value)
  : Sync World exn Rows.t :=
  let! result := call (SyncAdapter.query (adapter this) statement params) in
  ret (Rows.new result).

Definition execute (this : t) (statement : String.string) (params : list value)
  : Sync World exn ExecuteResult :=
  call (SyncAdapter.execute (adapter this) statement params).
End Methods.
Arguments t : clear implicits.
End SyncDatabase.

(** ** [async.ts] *)

Module AsyncAdapter.
Record t (World ExecuteResult : Type) : Type := mk {
  query : String.string -> list value -> Promise World value (list (list value));
  execute : String.string -> list value -> Promise World value ExecuteResult
}.
Arguments mk {World ExecuteResult}.
Arguments query {World ExecuteResult}.
Arguments execute {World ExecuteResult}.
End AsyncAdapter.

Module AsyncDatabase.
Section Methods.
Context {World ExecuteResult : Type}.

Record t : Type := new { adapter : AsyncAdapter.t World ExecuteResult }.

Definition queryOne (this : t) (statement : String.string) (params : list value)
  : Promise World exn (option Row.t) :=
  async (
    let! result := await (adopt (AsyncAdapter.query (adapter this) statement params)) in
    if Z.of_nat (List.length result) <? 1 then ret None
    else ret (Some (Row.new (nth 0 result [])))).

Definition queryOneOrThrow (this : t) (statement : String.string) (params : list value)
  : Promise World exn Row.t :=
  async (
    let! row := await (queryOne this statement params) in
    match row with
    | None => throw (JsError "Query did not return any rows")
    | Some row => ret row
    end).

Definition query (this : t) (statement : String.string) (params : list value)
  : Promise World exn Rows.t :=
  async (
    let! result := await (adopt (AsyncAdapter.query (adapter this) statement params)) in
    ret (Rows.new result)).

Definition execute (this : t) (statement : String.string) (params : list value)
  : Promise World exn ExecuteResult :=
  async (
    let! r := await (adopt (AsyncAdapter.execute (adapter this) statement params)) in
    ret r).
End Methods.
Arguments t : clear implicits.
End AsyncDatabase.

(** * Vocabulary of the contract *)

(** The five typed accessor pairs. *)
Inductive kind : Type := Text | Num | WideInteger | Boolean | ByteSequence.

Definition accessor (k : kind) : Row.t -> Z -> completion exn value :=
  match k with
  | Text => Row.string
  | Num => Row.number
  | WideInteger => Row.bigint
  | Boolean => Row.boolean
  | ByteSequence => Row.bytes
  end.

Definition accessorNullable (k : kind) : Row.t -> Z -> completion exn value :=
  match k with
  | Text => Row.stringNullable
  | Num => Row.numberNullable
  | WideInteger => Row.bigintNullable
  | Boolean => Row.booleanNullable
  | ByteSequence => Row.bytesNullable
  end.

(** A value that already is of the kind an accessor asks for. *)
Definition has_kind (k : kind) (v : value) : bool :=
  match k, v with
  | Text, VString _ => true
  | Num, VNumber _ => true
  | WideInteger, VBigInt _ => true
  | Boolean, VBoolean _ => true
  | ByteSequence, VUint8Array _ _ => true
  | _, _ => false
  end.

(** TypeMismatch: the accessor threw an [Error] of its own. *)
Definition TypeMismatch (c : completion exn value) : Prop :=
  exists message, c = Throw (JsError message).

(** NoRows: the error of [queryOneOrThrow]. *)
Definition NoRows : exn := JsError "Query did not return any rows".

(** The index names no element of the row. *)
Definition out_of_range (r : Row.t) (index : Z) : Prop :=
  index < 0 \/ Z.of_nat (List.length (Row.result r)) <= index.

(** The real number a finite double denotes. *)
Definition number_value (n : spec_float) : option Q :=
  match n with
  | S754_zero _ => Some (inject_Z 0)
  | S754_finite s m e => Some (inject_Z (cond_Zopp s (Z.pos m)) * Qpower (inject_Z 2) e)%Q
  | S754_infinity _ => None
  | S754_nan => None
  end.

(** The number [n] denotes the integer [z]. *)
Definition denotes_integer (n : spec_float) (z : Z) : Prop :=
  exists q, number_value n = Some q /\ (q == inject_Z z)%Q.

(** The message of the non-nullable accessor of each kind. *)
Definition mismatch_message (k : kind) : String.string :=
  match k with
  | Text => "Not a string"
  | Num => "Not a number"
  | WideInteger => "Not an integer"
  | Boolean => "Not a boolean"
  | ByteSequence => "Not an Uint8Array"
  end.

(** The message of the nullable accessor of each kind. *)
Definition mismatch_message_nullable (k : kind) : String.string :=
  match k with
  | Text => "Not a string or null"
  | Num => "Not a number or null"
  | WideInteger => "Not an integer or null"
  | Boolean => "Not a boolean or null"
  | ByteSequence => "Not an Uint8Array or null"
  end.

(** NaN, the one value that is not [===] to itself. *)
Definition is_NaN (v : value) : bool :=
  match v with
  | VNumber S754_nan => true
  | _ => false
  end.

(** The row [queryOne] hands out for what the adapter returned. *)
Definition first_row (rows : list (list value)) : option Row.t :=
  match rows with
  | [] => None
  | tuple :: _ => Some (Row.new tuple)
  end.

(** What the first [next()] of a new iterator gives, as [queryOne] reports
    it: the row, or [null] at the end. *)
Definition first_yield (rows : Rows.t) : option Row.t :=
  match fst (Rows.next (Rows.iterator rows)) with
  | Rows.Yield row => Some row
  | Rows.Done => None
  end.

(** The deferred form of a completion: a return fulfils, a throw rejects. *)
Definition deferred {E A} (c : completion E A) : settled E A :=
  match c with
  | Normal a => Fulfilled a
  | Throw e => Rejected e
  end.

(** A settled promise and a completed call agree: same result or same error,
    same world afterwards. *)
Definition same_outcome {World E A}
  (p : settled E A * World) (c : completion E A * World) : Prop :=
  p = (deferred (fst c), snd c).

(** ** Sample data *)

(** 42 and 4.2 as doubles. *)
Definition double_42 : spec_float := S754_finite false 5910974510923776 (-47).
Definition double_4_2 : spec_float := S754_finite false 4728779608739021 (-50).

(** Two adapters over a world that counts the calls made: [SELECT] returns
    two rows, [EMPTY] none, anything else fails. *)
Definition demo_rows : list (list value) :=
  [[VBigInt 7; VString "x"]; [VBigInt 8; VString "y"]].

Definition demo_sync_adapter : SyncAdapter.t nat nat :=
  SyncAdapter.mk
    (fun statement params calls =>
       if String.eqb statement "SELECT" then (Normal demo_rows, S calls)
       else if String.eqb statement "EMPTY" then (Normal [], S calls)
       else (Throw (VString "syntax error"), S calls))
    (fun statement params calls => (Normal (List.length params), S calls)).

Definition demo_async_adapter : AsyncAdapter.t nat nat :=
  AsyncAdapter.mk
    (fun statement params calls =>
       if String.eqb statement "SELECT" then (Fulfilled demo_rows, S calls)
       else if String.eqb statement "EMPTY" then (Fulfilled [], S calls)
       else (Rejected (VString "syntax error"), S calls))
    (fun statement params calls => (Fulfilled (List.length params), S calls)).

(** * Properties *)

(** ** Reading a column *)

Lemma get_out_of_range (r : Row.t) (index : Z) :
  out_of_range r index -> Row.get r index = VUndefined.
Proof.
  unfold out_of_range, Row.get. intros [Hneg | Hlen].
  - apply Z.ltb_lt in Hneg. now rewrite Hneg.
  - destruct (index <? 0); [reflexivity |].
    assert (Hnone : nth_error (Row.result r) (Z.to_nat index) = None)
      by (apply nth_error_None; lia).
    now rewrite Hnone.
Qed.

Lemma get_in_range (tuple : list value) (i : nat) (v : value) :
  nth_error tuple i = Some v -> Row.get (Row.new tuple) (Z.of_nat i) = v.
Proof.
  intros Hnth. unfold Row.get. cbn [Row.result].
  destruct (Z.of_nat i <? 0) eqn:Hneg; [apply Z.ltb_lt in Hneg; lia |].
  now rewrite Nat2Z.id, Hnth.
Qed.

(** Each accessor is a function of the raw value alone. *)
Ltac by_value r i :=
  unfold Row.string, Row.stringNullable, Row.number, Row.numberNullable,
    Row.bigint, Row.bigintNullable, Row.boolean, Row.booleanNullable,
    Row.bytes, Row.bytesNullable in *;
  destruct (Row.get r i) eqn:?; cbn in *.

Lemma accessors_on_undefined (r : Row.t) (i : Z) :
  Row.get r i = VUndefined ->
  Row.stringNullable r i = Throw (JsError "Not a string or null") /\
  Row.numberNullable r i = Throw (JsError "Not a number or null") /\
  Row.bigintNullable r i = Throw (JsError "Not an integer or null") /\
  Row.booleanNullable r i = Throw (JsError "Not a boolean or null") /\
  Row.bytesNullable r i = Throw (JsError "Not an Uint8Array or null") /\
  Row.string r i = Throw (JsError "Not a string") /\
  Row.number r i = Throw (JsError "Not a number") /\
  Row.bigint r i = Throw (JsError "Not an integer") /\
  Row.boolean r i = Throw (JsError "Not a boolean") /\
  Row.bytes r i = Throw (JsError "Not an Uint8Array").
Proof.
  intros Hget.
  unfold Row.string, Row.stringNullable, Row.number, Row.numberNullable,
    Row.bigint, Row.bigintNullable, Row.boolean, Row.booleanNullable,
    Row.bytes, Row.bytesNullable.
  rewrite Hget. cbn. repeat split.
Qed.

(** C1, as the code has it: an index outside [0, length) reads [undefined],
    and [undefined] is not [null], so every typed accessor fails with
    TypeMismatch there, the nullable ones included. *)
Theorem out_of_range_access (r : Row.t) (index : Z) :
  out_of_range r index ->
  Row.get r index = VUndefined /\
  (forall k, TypeMismatch (accessorNullable k r index)) /\
  (forall k, TypeMismatch (accessor k r index)).
Proof.
  intros Hout. pose proof (get_out_of_range r index Hout) as Hget.
  destruct (accessors_on_undefined r index Hget)
    as (H1 & H2 & H3 & H4 & H5 & H6 & H7 & H8 & H9 & H10).
  split; [exact Hget |].
  split; intros []; cbn [accessor accessorNullable]; eexists; eassumption.
Qed.

Lemma out_of_range_access_witness :
  let r := Row.new [VString "x"] in
  Row.get r 1 = VUndefined /\
  (forall k, TypeMismatch (accessorNullable k r 1)) /\
  (forall k, TypeMismatch (accessor k r 1)).
Proof.
  intros r. apply (out_of_range_access r 1). right. cbn. lia.
Defined.

(** C1, as stated, fails: past the end of a one-column row the nullable
    accessors do not return [null], they throw. *)
Lemma out_of_range_nullable_throws :
  out_of_range (Row.new [VString "x"]) 1 /\
  Row.stringNullable (Row.new [VString "x"]) 1
  = Throw (JsError "Not a string or null") /\
  Row.stringNullable (Row.new [VString "x"]) 1 <> Normal VNull /\
  Row.numberNullable (Row.new [VString "x"]) 1 <> Normal VNull /\
  Row.bigintNullable (Row.new [VString "x"]) 1 <> Normal VNull /\
  Row.booleanNullable (Row.new [VString "x"]) 1 <> Normal VNull /\
  Row.bytesNullable (Row.new [VString "x"]) 1 <> Normal VNull.
Proof.
  split; [right; cbn; lia |].
  repeat split; try reflexivity; vm_compute; discriminate.
Qed.

(** ** Null columns *)

(** C3: where the column holds [null], the nullable accessors return [null]
    and the non-nullable ones fail with TypeMismatch; and no non-nullable
    accessor ever returns [null] or [undefined], whatever the column holds. *)
Theorem null_column (r : Row.t) (i : Z) :
  (Row.get r i = VNull ->
   (forall k, accessorNullable k r i = Normal VNull) /\
   (forall k, TypeMismatch (accessor k r i))) /\
  (forall k v, accessor k r i = Normal v -> v <> VNull /\ v <> VUndefined).
Proof.
  split.
  - intros Hget. split; intros []; cbn [accessor accessorNullable];
      by_value r i; try discriminate; try reflexivity;
      eexists; reflexivity.
  - intros [] v; cbn [accessor]; by_value r i; intros Hv;
      try discriminate; try (injection Hv as <-; split; discriminate).
    unfold BigInt in Hv. destruct (Number_isInteger n).
    + destruct (integral_value n); [injection Hv as <-; split|]; discriminate.
    + discriminate.
Qed.

Lemma null_column_witness :
  let r := Row.new [VNumber (S754_zero false); VNull] in
  ((forall k, accessorNullable k r 1 = Normal VNull) /\
   (forall k, TypeMismatch (accessor k r 1))) /\
  (VNumber (S754_zero false) <> VNull /\ VNumber (S754_zero false) <> VUndefined).
Proof.
  intros r. split.
  - apply (proj1 (null_column r 1)). reflexivity.
  - apply (proj2 (null_column r 0) Num (VNumber (S754_zero false))). reflexivity.
Defined.

(** ** No implicit conversion *)

(** C4: [string], [number], [boolean] and [bytes] return the raw value itself
    when it already is of the requested kind and fail with TypeMismatch
    otherwise; so a text column is read by [string] alone, and a numeric
    column is not read by [boolean]. *)
Theorem no_implicit_conversion (r : Row.t) (i : Z) :
  (forall k, k <> WideInteger ->
     (has_kind k (Row.get r i) = true -> accessor k r i = Normal (Row.get r i)) /\
     (has_kind k (Row.get r i) = false ->
        accessor k r i = Throw (JsError (mismatch_message k))) /\
     (forall v, accessor k r i = Normal v ->
        v = Row.get r i /\ has_kind k v = true)) /\
  (forall s, Row.get r i = VString s ->
     Row.string r i = Normal (VString s) /\
     TypeMismatch (Row.number r i) /\
     TypeMismatch (Row.boolean r i) /\
     TypeMismatch (Row.bytes r i)) /\
  (forall n, Row.get r i = VNumber n -> TypeMismatch (Row.boolean r i)).
Proof.
  split; [| split].
  - intros [] Hk; try congruence; cbn [accessor mismatch_message];
      by_value r i; repeat split; intros; subst;
      try discriminate; try reflexivity;
      match goal with
      | H : Normal _ = Normal _ |- _ => injection H as <-; reflexivity
      end.
  - intros s Hget. by_value r i; try discriminate.
    injection Hget as ->. repeat split; eexists; reflexivity.
  - intros n Hget. by_value r i; try discriminate. eexists; reflexivity.
Qed.

Lemma no_implicit_conversion_witness :
  let r := Row.new [VString "x"; VNumber (S754_finite false 1 0)] in
  (Row.string r 0 = Normal (VString "x") /\
   TypeMismatch (Row.number r 0) /\
   TypeMismatch (Row.boolean r 0) /\
   TypeMismatch (Row.bytes r 0)) /\
  TypeMismatch (Row.boolean r 1) /\
  Row.number r 1 = Normal (Row.get r 1) /\
  Row.bytes r 1 = Throw (JsError "Not an Uint8Array") /\
  (VString "x" = Row.get r 0 /\ has_kind Text (VString "x") = true).
Proof.
  intros r.
  destruct (no_implicit_conversion r 0) as (Hkind0 & Htext & _).
  destruct (no_implicit_conversion r 1) as (Hkind & _ & Hnum).
  split; [apply (Htext "x"); reflexivity |].
  split; [apply (Hnum (S754_finite false 1 0)); reflexivity |].
  split; [| split].
  - apply (Hkind Num); [discriminate | reflexivity].
  - apply (Hkind ByteSequence); [discriminate | reflexivity].
  - apply (Hkind0 Text); [discriminate | reflexivity].
Defined.

(** ** Nullable and non-nullable accessors agree *)

(** C10: what a non-nullable accessor returns, its nullable twin returns too;
    and a non-null value returned by a nullable accessor is returned by the
    non-nullable one. *)
Theorem nullable_coherence (k : kind) (r : Row.t) (i : Z) (v : value) :
  (accessor k r i = Normal v -> accessorNullable k r i = Normal v) /\
  (accessorNullable k r i = Normal v -> v <> VNull -> accessor k r i = Normal v).
Proof.
  destruct k; cbn [accessor accessorNullable]; by_value r i;
    split; intros; try discriminate; try assumption;
    try (destruct (Number_isInteger n); [assumption | discriminate]);
    match goal with
    | H : Normal VNull = Normal ?v, N : ?v <> VNull |- _ =>
        exfalso; apply N; now injection H
    end.
Qed.

Lemma nullable_coherence_witness :
  let r := Row.new [VBigInt 7; VString "x"] in
  Row.bigintNullable r 0 = Normal (VBigInt 7) /\
  Row.string r 1 = Normal (VString "x").
Proof.
  intros r. split.
  - apply (proj1 (nullable_coherence WideInteger r 0 (VBigInt 7))). reflexivity.
  - apply (proj2 (nullable_coherence Text r 1 (VString "x")));
      [reflexivity | discriminate].
Defined.

(** ** Wide integers *)

(** [Number.isInteger] and [BigInt] against the value the double denotes. *)

Lemma Q_quotient_integer (M : Z) (p : positive) (z : Z) :
  (inject_Z M * / inject_Z (Z.pos p) == inject_Z z)%Q <-> M = z * Z.pos p.
Proof.
  unfold Qeq, Qmult, Qinv, inject_Z. cbn. lia.
Qed.

Lemma cond_Zopp_mul (s : bool) (a b : Z) :
  cond_Zopp s (a * b) = cond_Zopp s a * b.
Proof. destruct s; cbn; lia. Qed.

Lemma finite_value_nonneg (s : bool) (m : positive) (e : Z) :
  0 <= e ->
  (inject_Z (cond_Zopp s (Z.pos m)) * Qpower (inject_Z 2) e
   == inject_Z (cond_Zopp s (Z.pos m * 2 ^ e)))%Q.
Proof.
  intros He. rewrite cond_Zopp_mul, inject_Z_mult.
  now rewrite (Zpower_Qpower 2 e He).
Qed.

Lemma finite_value_neg (s : bool) (m : positive) (e : Z) :
  e < 0 ->
  (inject_Z (cond_Zopp s (Z.pos m)) * Qpower (inject_Z 2) e
   == inject_Z (cond_Zopp s (Z.pos m)) * / inject_Z (2 ^ (- e)))%Q.
Proof.
  intros He.
  replace e with (- - e) at 1 by lia.
  rewrite Qpower_opp, <- Zpower_Qpower by lia. reflexivity.
Qed.

Lemma integral_value_spec (n : spec_float) (z : Z) :
  integral_value n = Some z <-> denotes_integer n z.
Proof.
  unfold denotes_integer.
  destruct n as [s | s | | s m e]; cbn [integral_value number_value].
  - split.
    + intros [= <-]. eexists; split; reflexivity.
    + intros (q & [= <-] & Hq). apply (proj1 (inject_Z_injective _ _)) in Hq. congruence.
  - split; [discriminate | intros (q & Hq & _); discriminate].
  - split; [discriminate | intros (q & Hq & _); discriminate].
  - destruct (0 <=? e) eqn:He.
    + apply Z.leb_le in He. split.
      * intros [= <-]. eexists; split; [reflexivity |].
        now apply finite_value_nonneg.
      * intros (q & [= <-] & Hq).
        rewrite finite_value_nonneg in Hq by assumption.
        apply (proj1 (inject_Z_injective _ _)) in Hq. congruence.
    + apply Z.leb_gt in He.
      assert (Hpow : 0 < 2 ^ (- e)) by (apply Z.pow_pos_nonneg; lia).
      destruct (2 ^ (- e)) as [| p | p] eqn:Hp; try lia.
      split.
      * destruct (Z.pos m mod Z.pos p =? 0) eqn:Hmod; [| discriminate].
        apply Z.eqb_eq in Hmod. intros [= <-].
        eexists; split; [reflexivity |].
        rewrite finite_value_neg, Hp by assumption.
        apply Q_quotient_integer.
        rewrite <- cond_Zopp_mul. f_equal.
        rewrite Z.mul_comm. apply Z.div_exact in Hmod; lia.
      * intros (q & [= <-] & Hq).
        rewrite finite_value_neg, Hp in Hq by assumption.
        apply (proj1 (Q_quotient_integer _ _ _)) in Hq.
        assert (Hm : Z.pos m = cond_Zopp s z * Z.pos p)
          by (destruct s; cbn in *; lia).
        assert (Hmod : Z.pos m mod Z.pos p = 0)
          by (rewrite Hm; apply Z.mod_mul; lia).
        rewrite Hmod. cbn [Z.eqb]. f_equal.
        rewrite Hm, Z.div_mul by lia. destruct s; cbn; lia.
Qed.

Lemma Number_isInteger_spec (n : spec_float) :
  Number_isInteger n = true <-> exists z, denotes_integer n z.
Proof.
  unfold Number_isInteger. split.
  - destruct (integral_value n) as [z |] eqn:Hz; [| discriminate].
    intros _. exists z. now apply integral_value_spec.
  - intros (z & Hz). apply integral_value_spec in Hz. now rewrite Hz.
Qed.

(** C2: [bigint] widens an integral number to the wide integer of the same
    value, passes a wide integer through and fails with TypeMismatch on
    everything else; [bigintNullable] does the same but returns [null] for
    [null]. *)
Theorem bigint_widening (r : Row.t) (i : Z) :
  (forall n z, Row.get r i = VNumber n -> denotes_integer n z ->
     Row.bigint r i = Normal (VBigInt z) /\
     Row.bigintNullable r i = Normal (VBigInt z)) /\
  (forall z, Row.get r i = VBigInt z ->
     Row.bigint r i = Normal (VBigInt z) /\
     Row.bigintNullable r i = Normal (VBigInt z)) /\
  (Row.get r i = VNull ->
     Row.bigint r i = Throw (JsError "Not an integer") /\
     Row.bigintNullable r i = Normal VNull) /\
  ((forall n z, Row.get r i = VNumber n -> ~ denotes_integer n z) ->
   (forall z, Row.get r i <> VBigInt z) ->
   Row.get r i <> VNull ->
     Row.bigint r i = Throw (JsError "Not an integer") /\
     Row.bigintNullable r i = Throw (JsError "Not an integer or null")).
Proof.
  assert (Hwiden : forall n z, Row.get r i = VNumber n -> denotes_integer n z ->
            Row.bigint r i = Normal (VBigInt z) /\
            Row.bigintNullable r i = Normal (VBigInt z)).
  { intros n z Hget Hz. apply integral_value_spec in Hz.
    unfold Row.bigint, Row.bigintNullable. rewrite Hget.
    unfold Number_isInteger, BigInt. rewrite Hz. split; reflexivity. }
  split; [exact Hwiden |].
  split; [| split].
  - intros z Hget. unfold Row.bigint, Row.bigintNullable.
    rewrite Hget. split; reflexivity.
  - intros Hget. unfold Row.bigint, Row.bigintNullable.
    rewrite Hget. split; reflexivity.
  - intros Hnum Hbig Hnull.
    unfold Row.bigint, Row.bigintNullable.
    destruct (Row.get r i) as [| | b | n | z | s | id | loc bs | loc | loc] eqn:Hget;
      cbn; try (split; reflexivity).
    + now contradiction Hnull.
    + destruct (Number_isInteger n) eqn:Hint; [| split; reflexivity].
      apply Number_isInteger_spec in Hint. destruct Hint as (z & Hz).
      now contradiction (Hnum n z eq_refl).
    + now contradiction (Hbig z).
Qed.

Lemma bigint_widening_witness :
  let r := Row.new [VNumber double_42; VNumber double_4_2; VBigInt 7; VNull] in
  (Row.bigint r 0 = Normal (VBigInt 42) /\
   Row.bigintNullable r 0 = Normal (VBigInt 42)) /\
  (Row.bigint r 2 = Normal (VBigInt 7) /\
   Row.bigintNullable r 2 = Normal (VBigInt 7)) /\
  (Row.bigint r 3 = Throw (JsError "Not an integer") /\
   Row.bigintNullable r 3 = Normal VNull) /\
  (Row.bigint r 1 = Throw (JsError "Not an integer") /\
   Row.bigintNullable r 1 = Throw (JsError "Not an integer or null")) /\
  (Row.bigint r 4 = Throw (JsError "Not an integer") /\
   Row.bigintNullable r 4 = Throw (JsError "Not an integer or null")).
Proof.
  intros r.
  destruct (bigint_widening r 0) as (Hint & _).
  destruct (bigint_widening r 2) as (_ & Hbig & _).
  destruct (bigint_widening r 3) as (_ & _ & Hnull & _).
  destruct (bigint_widening r 1) as (_ & _ & _ & Hfrac).
  destruct (bigint_widening r 4) as (_ & _ & _ & Habsent).
  split; [| split; [| split; [| split]]].
  - apply (Hint double_42 42); [reflexivity |].
    apply integral_value_spec. reflexivity.
  - apply (Hbig 7). reflexivity.
  - apply Hnull. reflexivity.
  - apply Hfrac; try discriminate.
    intros n z [= <-] Hz. apply integral_value_spec in Hz. discriminate.
  - apply Habsent; discriminate.
Defined.

(** ** Round trip through [get] *)

Lemma Number_equal_refl (n : spec_float) :
  Number_equal n n = negb (is_NaN (VNumber n)).
Proof.
  unfold Number_equal, SFeqb.
  destruct n as [s | s | | s m e]; cbn; try reflexivity.
  - now destruct s.
  - destruct s; rewrite Z.compare_refl, Pos.compare_cont_refl; reflexivity.
Qed.

Lemma strict_equal_refl (v : value) :
  strict_equal v v = negb (is_NaN v).
Proof.
  destruct v; cbn [strict_equal];
    try apply Number_equal_refl; try reflexivity.
  - now destruct b.
  - apply Z.eqb_refl.
  - apply String.eqb_refl.
  - apply Pos.eqb_refl.
  - apply Pos.eqb_refl.
  - apply Pos.eqb_refl.
  - apply Pos.eqb_refl.
Qed.

(** C8, as the code has it: [get(i)] of the row built from a tuple is the
    tuple's own element at [i], nothing copied or coerced; it is [===] to
    that element unless the element is NaN, which is [===] to nothing. *)
Theorem get_round_trip (tuple : list value) (index : Z) :
  0 <= index < Z.of_nat (List.length tuple) ->
  exists element,
    nth_error tuple (Z.to_nat index) = Some element /\
    Row.get (Row.new tuple) index = element /\
    strict_equal (Row.get (Row.new tuple) index) element = negb (is_NaN element).
Proof.
  intros Hrange.
  destruct (nth_error tuple (Z.to_nat index)) as [element |] eqn:Hnth.
  - exists element.
    assert (Hget : Row.get (Row.new tuple) index = element).
    { rewrite <- (Z2Nat.id index) by lia. now apply get_in_range. }
    rewrite Hget. repeat split. apply strict_equal_refl.
  - apply nth_error_None in Hnth. lia.
Qed.

Lemma get_round_trip_witness :
  exists element,
    nth_error [VBigInt 7; VString "x"] (Z.to_nat 1) = Some element /\
    Row.get (Row.new [VBigInt 7; VString "x"]) 1 = element /\
    strict_equal (Row.get (Row.new [VBigInt 7; VString "x"]) 1) element
    = negb (is_NaN element).
Proof.
  apply (get_round_trip [VBigInt 7; VString "x"] 1). cbn. lia.
Defined.

(** C8, as stated, fails on a NaN column: [get(0)] returns the element, and
    the element is not [===] to itself. *)
Lemma get_NaN_not_strict_equal :
  0 <= 0 < Z.of_nat (List.length [VNumber S754_nan]) /\
  nth_error [VNumber S754_nan] 0 = Some (VNumber S754_nan) /\
  Row.get (Row.new [VNumber S754_nan]) 0 = VNumber S754_nan /\
  strict_equal (Row.get (Row.new [VNumber S754_nan]) 0) (VNumber S754_nan) = false.
Proof.
  cbn. repeat split; lia.
Qed.

(** ** Rows *)

Lemma next_keeps_this (g : Rows.Generator) :
  Rows.gen_this (snd (Rows.next g)) = Rows.gen_this g.
Proof.
  unfold Rows.next, Rows.resume.
  destruct (Rows.gen_state g) as [| k |]; try reflexivity.
  - destruct (nth_error _ 0); reflexivity.
  - destruct (nth_error _ k); reflexivity.
Qed.

Lemma advance_keeps_this (n : nat) (g : Rows.Generator) :
  Rows.gen_this (Rows.advance n g) = Rows.gen_this g.
Proof.
  revert g. induction n as [| n IH]; intros g; cbn [Rows.advance].
  - reflexivity.
  - now rewrite IH, next_keeps_this.
Qed.

Lemma skipn_nth_error_cons {A} (l : list A) (k : nat) (x : A) :
  nth_error l k = Some x -> skipn k l = x :: skipn (S k) l.
Proof.
  revert k. induction l as [| y l IH]; intros [| k] Hnth; cbn in Hnth;
    try discriminate.
  - now injection Hnth as ->.
  - cbn [skipn]. now apply IH.
Qed.

(** Draining a generator suspended at [k] yields the rows from [k] on. *)
Lemma drain_suspended (this : Rows.t) (fuel k : nat) :
  (List.length (Rows.result this) - k < fuel)%nat ->
  Rows.drain fuel (Rows.mkGenerator this (Rows.SuspendedYield k))
  = Some (map Row.new (skipn k (Rows.result this))).
Proof.
  revert k. induction fuel as [| fuel IH]; intros k Hfuel.
  - lia.
  - cbn [Rows.drain]. unfold Rows.next, Rows.resume. cbn [Rows.gen_state Rows.gen_this].
    destruct (nth_error (Rows.result this) k) as [item |] eqn:Hnth.
    + assert (Hk_lt : (k < List.length (Rows.result this))%nat)
        by (apply nth_error_Some; congruence).
      rewrite IH by lia.
      rewrite (skipn_nth_error_cons _ _ _ Hnth). reflexivity.
    + apply nth_error_None in Hnth. rewrite skipn_all2 by lia. reflexivity.
Qed.

Lemma drain_fresh (this : Rows.t) (fuel : nat) :
  (List.length (Rows.result this) < fuel)%nat ->
  Rows.drain fuel (Rows.iterator this) = Some (map Row.new (Rows.result this)).
Proof.
  intros Hfuel.
  pose proof (drain_suspended this fuel 0) as H0.
  rewrite Nat.sub_0_r in H0. specialize (H0 Hfuel). cbn [skipn] in H0.
  destruct fuel as [| fuel]; [lia |].
  cbn [Rows.drain] in *. unfold Rows.iterator, Rows.next in *.
  cbn [Rows.gen_state] in *. exact H0.
Qed.

(** C7: [count()] is the number of tuples; draining an iterator yields one
    [Row] per tuple, in order; and however far an earlier iterator was
    driven, the [Rows] object is what it was and a new iterator replays all
    rows from the first. *)
Theorem rows_count_and_iteration (tuples : list (list value)) (fuel : nat) :
  (List.length tuples < fuel)%nat ->
  let rows := Rows.new tuples in
  Rows.count rows = Z.of_nat (List.length tuples) /\
  Rows.drain fuel (Rows.iterator rows) = Some (map Row.new tuples) /\
  (forall n,
     let used := Rows.advance n (Rows.iterator rows) in
     Rows.gen_this used = rows /\
     Rows.drain fuel (Rows.iterator (Rows.gen_this used))
     = Some (map Row.new tuples)).
Proof.
  intros Hfuel rows.
  assert (Hdrain : Rows.drain fuel (Rows.iterator rows) = Some (map Row.new tuples))
    by (apply (drain_fresh rows fuel); exact Hfuel).
  split; [reflexivity |].
  split; [exact Hdrain |].
  intros n used.
  assert (Hthis : Rows.gen_this used = rows)
    by (unfold used; now rewrite advance_keeps_this).
  split; [exact Hthis |].
  now rewrite Hthis.
Qed.

Lemma rows_count_and_iteration_witness :
  let tuples := [[VBigInt 1; VString "a"]; [VBigInt 2; VString "b"];
                 [VBigInt 3; VString "c"]] in
  let rows := Rows.new tuples in
  Rows.count rows = 3 /\
  Rows.drain 4 (Rows.iterator rows) = Some (map Row.new tuples) /\
  (forall n,
     let used := Rows.advance n (Rows.iterator rows) in
     Rows.gen_this used = rows /\
     Rows.drain 4 (Rows.iterator (Rows.gen_this used))
     = Some (map Row.new tuples)).
Proof.
  intros tuples rows.
  apply (rows_count_and_iteration tuples 4). cbn. lia.
Defined.

(** ** The facades *)

Lemma length_below_one {A} (l : list A) :
  (Z.of_nat (List.length l) <? 1) = match l with [] => true | _ :: _ => false end.
Proof.
  destruct l as [| x l]; [reflexivity |].
  apply Z.ltb_ge. cbn [List.length]. lia.
Qed.

Section Facades.
Context {World ExecuteResult : Type}.
Variable sa : SyncAdapter.t World ExecuteResult.
Variable aa : AsyncAdapter.t World ExecuteResult.
Variable statement : String.string.
Variable params : list value.
Variable w : World.

Let sdb := SyncDatabase.new sa.
Let adb := AsyncDatabase.new aa.

Lemma sync_queryOne_unfold :
  SyncDatabase.queryOne sdb statement params w =
  match SyncAdapter.query sa statement params w with
  | (Normal rows, w') => (Normal (first_row rows), w')
  | (Throw v, w') => (Throw (Foreign v), w')
  end.
Proof.
  unfold SyncDatabase.queryOne, bind, call. cbn [SyncDatabase.adapter sdb].
  destruct (SyncAdapter.query sa statement params w) as [[rows | v] w'];
    [| reflexivity].
  rewrite length_below_one. destruct rows as [| tuple rest]; reflexivity.
Qed.

Lemma async_queryOne_unfold :
  AsyncDatabase.queryOne adb statement params w =
  match AsyncAdapter.query aa statement params w with
  | (Fulfilled rows, w') => (Fulfilled (first_row rows), w')
  | (Rejected v, w') => (Rejected (Foreign v), w')
  end.
Proof.
  unfold AsyncDatabase.queryOne, async, bind, await, adopt.
  cbn [AsyncDatabase.adapter adb].
  destruct (AsyncAdapter.query aa statement params w) as [[rows | v] w'];
    [| reflexivity].
  rewrite length_below_one. destruct rows as [| tuple rest]; reflexivity.
Qed.

Lemma sync_queryOneOrThrow_unfold :
  SyncDatabase.queryOneOrThrow sdb statement params w =
  match SyncAdapter.query sa statement params w with
  | (Normal [], w') => (Throw NoRows, w')
  | (Normal (tuple :: _), w') => (Normal (Row.new tuple), w')
  | (Throw v, w') => (Throw (Foreign v), w')
  end.
Proof.
  unfold SyncDatabase.queryOneOrThrow, bind at 1.
  rewrite sync_queryOne_unfold.
  destruct (SyncAdapter.query sa statement params w) as [[rows | v] w'];
    [| reflexivity].
  destruct rows as [| tuple rest]; reflexivity.
Qed.

Lemma async_queryOneOrThrow_unfold :
  AsyncDatabase.queryOneOrThrow adb statement params w =
  match AsyncAdapter.query aa statement params w with
  | (Fulfilled [], w') => (Rejected NoRows, w')
  | (Fulfilled (tuple :: _), w') => (Fulfilled (Row.new tuple), w')
  | (Rejected v, w') => (Rejected (Foreign v), w')
  end.
Proof.
  unfold AsyncDatabase.queryOneOrThrow, async at 1, bind at 1, await at 1.
  rewrite async_queryOne_unfold.
  destruct (AsyncAdapter.query aa statement params w) as [[rows | v] w'];
    [| reflexivity].
  destruct rows as [| tuple rest]; reflexivity.
Qed.
End Facades.

(** C5: [queryOne], sync and async, yields [null] when the adapter returned
    no row and otherwise a [Row] on the first tuple, whatever follows it. *)
Theorem queryOne_first_row {World ExecuteResult : Type}
  (sa : SyncAdapter.t World ExecuteResult) (aa : AsyncAdapter.t World ExecuteResult)
  (statement : String.string) (params : list value) (w w' : World)
  (rows : list (list value)) :
  (SyncAdapter.query sa statement params w = (Normal rows, w') ->
   SyncDatabase.queryOne (SyncDatabase.new sa) statement params w
   = (Normal (first_row rows), w')) /\
  (AsyncAdapter.query aa statement params w = (Fulfilled rows, w') ->
   AsyncDatabase.queryOne (AsyncDatabase.new aa) statement params w
   = (Fulfilled (first_row rows), w')).
Proof.
  split; intros Hquery.
  - now rewrite sync_queryOne_unfold, Hquery.
  - now rewrite async_queryOne_unfold, Hquery.
Qed.

Lemma queryOne_first_row_witness :
  SyncDatabase.queryOne (SyncDatabase.new demo_sync_adapter) "SELECT" [] 0%nat
  = (Normal (Some (Row.new [VBigInt 7; VString "x"])), 1%nat) /\
  AsyncDatabase.queryOne (AsyncDatabase.new demo_async_adapter) "EMPTY" [] 0%nat
  = (Fulfilled None, 1%nat).
Proof.
  split.
  - apply (proj1 (queryOne_first_row demo_sync_adapter demo_async_adapter
                    "SELECT" [] 0%nat 1%nat demo_rows)).
    reflexivity.
  - apply (proj2 (queryOne_first_row demo_sync_adapter demo_async_adapter
                    "EMPTY" [] 0%nat 1%nat [])).
    reflexivity.
Defined.

(** C6: [queryOneOrThrow] fails with NoRows exactly when the adapter returned
    no row (a throw in the sync facade, a rejection in the async one), and
    otherwise returns the row [queryOne] returns. *)
Theorem queryOneOrThrow_NoRows {World ExecuteResult : Type}
  (sa : SyncAdapter.t World ExecuteResult) (aa : AsyncAdapter.t World ExecuteResult)
  (statement : String.string) (params : list value) (w w' : World) :
  let sdb := SyncDatabase.new sa in
  let adb := AsyncDatabase.new aa in
  (SyncDatabase.queryOneOrThrow sdb statement params w = (Throw NoRows, w') <->
   SyncAdapter.query sa statement params w = (Normal [], w')) /\
  (forall rows, rows <> [] ->
     SyncAdapter.query sa statement params w = (Normal rows, w') ->
     exists row,
       SyncDatabase.queryOne sdb statement params w = (Normal (Some row), w') /\
       SyncDatabase.queryOneOrThrow sdb statement params w = (Normal row, w')) /\
  (AsyncDatabase.queryOneOrThrow adb statement params w = (Rejected NoRows, w') <->
   AsyncAdapter.query aa statement params w = (Fulfilled [], w')) /\
  (forall rows, rows <> [] ->
     AsyncAdapter.query aa statement params w = (Fulfilled rows, w') ->
     exists row,
       AsyncDatabase.queryOne adb statement params w = (Fulfilled (Some row), w') /\
       AsyncDatabase.queryOneOrThrow adb statement params w = (Fulfilled row, w')).
Proof.
  intros sdb adb. subst sdb adb.
  rewrite sync_queryOneOrThrow_unfold, async_queryOneOrThrow_unfold.
  split; [| split; [| split]].
  - destruct (SyncAdapter.query sa statement params w) as [[[| tuple rest] | v] w1];
      split; intros H; try discriminate; injection H as <-; reflexivity.
  - intros rows Hrows Hquery.
    rewrite sync_queryOne_unfold, Hquery.
    destruct rows as [| tuple rest]; [contradiction |].
    exists (Row.new tuple). split; reflexivity.
  - destruct (AsyncAdapter.query aa statement params w) as [[[| tuple rest] | v] w1];
      split; intros H; try discriminate; injection H as <-; reflexivity.
  - intros rows Hrows Hquery.
    rewrite async_queryOne_unfold, Hquery.
    destruct rows as [| tuple rest]; [contradiction |].
    exists (Row.new tuple). split; reflexivity.
Qed.

Lemma queryOneOrThrow_NoRows_witness :
  let sdb := SyncDatabase.new demo_sync_adapter in
  let adb := AsyncDatabase.new demo_async_adapter in
  SyncDatabase.queryOneOrThrow sdb "EMPTY" [] 0%nat = (Throw NoRows, 1%nat) /\
  AsyncDatabase.queryOneOrThrow adb "EMPTY" [] 0%nat = (Rejected NoRows, 1%nat) /\
  SyncAdapter.query demo_sync_adapter "EMPTY" [] 0%nat = (Normal [], 1%nat) /\
  AsyncAdapter.query demo_async_adapter "EMPTY" [] 0%nat = (Fulfilled [], 1%nat) /\
  (exists row,
     SyncDatabase.queryOne sdb "SELECT" [] 0%nat = (Normal (Some row), 1%nat) /\
     SyncDatabase.queryOneOrThrow sdb "SELECT" [] 0%nat = (Normal row, 1%nat)) /\
  (exists row,
     AsyncDatabase.queryOne adb "SELECT" [] 0%nat = (Fulfilled (Some row), 1%nat) /\
     AsyncDatabase.queryOneOrThrow adb "SELECT" [] 0%nat = (Fulfilled row, 1%nat)).
Proof.
  intros sdb adb.
  destruct (queryOneOrThrow_NoRows demo_sync_adapter demo_async_adapter
              "EMPTY" [] 0%nat 1%nat) as (Hsync & _ & Hasync & _).
  destruct (queryOneOrThrow_NoRows demo_sync_adapter demo_async_adapter
              "SELECT" [] 0%nat 1%nat) as (_ & Hsrow & _ & Harow).
  split; [apply (proj2 Hsync); reflexivity |].
  split; [apply (proj2 Hasync); reflexivity |].
  split; [apply (proj1 Hsync); reflexivity |].
  split; [apply (proj1 Hasync); reflexivity |].
  split.
  - apply (Hsrow demo_rows); [discriminate | reflexivity].
  - apply (Harow demo_rows); [discriminate | reflexivity].
Defined.

(** C9: when the async adapter's promise settles as the sync adapter's call
    completes, every [AsyncDatabase] operation settles as the [SyncDatabase]
    operation completes: fulfilled with the value returned, rejected with
    the error thrown. *)
Theorem async_matches_sync {World ExecuteResult : Type}
  (sa : SyncAdapter.t World ExecuteResult) (aa : AsyncAdapter.t World ExecuteResult)
  (statement : String.string) (params : list value) (w : World) :
  let sdb := SyncDatabase.new sa in
  let adb := AsyncDatabase.new aa in
  (same_outcome (AsyncAdapter.query aa statement params w)
                (SyncAdapter.query sa statement params w) ->
   same_outcome (AsyncDatabase.query adb statement params w)
                (SyncDatabase.query sdb statement params w) /\
   same_outcome (AsyncDatabase.queryOne adb statement params w)
                (SyncDatabase.queryOne sdb statement params w) /\
   same_outcome (AsyncDatabase.queryOneOrThrow adb statement params w)
                (SyncDatabase.queryOneOrThrow sdb statement params w)) /\
  (same_outcome (AsyncAdapter.execute aa statement params w)
                (SyncAdapter.execute sa statement params w) ->
   same_outcome (AsyncDatabase.execute adb statement params w)
                (SyncDatabase.execute sdb statement params w)).
Proof.
  intros sdb adb. subst sdb adb. unfold same_outcome. split.
  - intros Hquery.
    rewrite async_queryOne_unfold, sync_queryOne_unfold,
      async_queryOneOrThrow_unfold, sync_queryOneOrThrow_unfold.
    unfold AsyncDatabase.query, SyncDatabase.query, async, bind, await, adopt, call, ret.
    cbn [AsyncDatabase.adapter SyncDatabase.adapter].
    rewrite Hquery.
    destruct (SyncAdapter.query sa statement params w) as [[[| tuple rest] | v] w1];
      repeat split.
  - intros Hexecute.
    unfold AsyncDatabase.execute, SyncDatabase.execute, async, bind, await, adopt, call, ret.
    cbn [AsyncDatabase.adapter SyncDatabase.adapter].
    rewrite Hexecute.
    destruct (SyncAdapter.execute sa statement params w) as [[r | v] w1];
      reflexivity.
Qed.

Lemma async_matches_sync_witness :
  let sdb := SyncDatabase.new demo_sync_adapter in
  let adb := AsyncDatabase.new demo_async_adapter in
  (same_outcome (AsyncDatabase.query adb "SELECT" [] 0%nat)
                (SyncDatabase.query sdb "SELECT" [] 0%nat) /\
   same_outcome (AsyncDatabase.queryOne adb "SELECT" [] 0%nat)
                (SyncDatabase.queryOne sdb "SELECT" [] 0%nat) /\
   same_outcome (AsyncDatabase.queryOneOrThrow adb "SELECT" [] 0%nat)
                (SyncDatabase.queryOneOrThrow sdb "SELECT" [] 0%nat)) /\
  same_outcome (AsyncDatabase.execute adb "DELETE" [VNull] 0%nat)
               (SyncDatabase.execute sdb "DELETE" [VNull] 0%nat).
Proof.
  intros sdb adb. split.
  - apply (proj1 (async_matches_sync demo_sync_adapter demo_async_adapter
                    "SELECT" [] 0%nat)).
    reflexivity.
  - apply (proj2 (async_matches_sync demo_sync_adapter demo_async_adapter
                    "DELETE" [VNull] 0%nat)).
    reflexivity.
Defined.

(** * Further properties of the accessors *)

(** Whatever an accessor returns is of the kind it is named after, the wide
    integers included; a nullable accessor may return [null] besides, and it
    does so exactly when the column holds [null] (an absent column is not
    turned into [null]). *)
Theorem accessor_result_kind (k : kind) (r : Row.t) (i : Z) (v : value) :
  (accessor k r i = Normal v -> has_kind k v = true) /\
  (accessorNullable k r i = Normal v -> has_kind k v = true \/ v = VNull) /\
  (accessorNullable k r i = Normal VNull <-> Row.get r i = VNull).
Proof.
  split; [| split; [| split]].
  - destruct k; cbn [accessor]; by_value r i; intros Hv;
      try discriminate; try (injection Hv as <-; reflexivity).
    unfold BigInt in Hv. destruct (Number_isInteger n); [| discriminate].
    destruct (integral_value n); [injection Hv as <-; reflexivity | discriminate].
  - destruct k; cbn [accessorNullable]; by_value r i; intros Hv;
      try discriminate;
      try (injection Hv as <-; (left; reflexivity) || (right; reflexivity)).
    unfold BigInt in Hv. destruct (Number_isInteger n); [| discriminate].
    destruct (integral_value n);
      [injection Hv as <-; left; reflexivity | discriminate].
  - destruct k; cbn [accessorNullable]; by_value r i; intros Hv;
      try discriminate; try reflexivity.
    unfold BigInt in Hv. destruct (Number_isInteger n); [| discriminate].
    destruct (integral_value n); discriminate.
  - intros Hget. destruct k; cbn [accessorNullable];
      unfold Row.stringNullable, Row.numberNullable, Row.bigintNullable,
        Row.booleanNullable, Row.bytesNullable;
      rewrite Hget; reflexivity.
Qed.

Lemma accessor_result_kind_witness :
  let r := Row.new [VNumber double_42; VNull] in
  has_kind WideInteger (VBigInt 42) = true /\
  (has_kind Num (VNumber double_42) = true \/ VNumber double_42 = VNull) /\
  Row.get r 1 = VNull /\
  Row.stringNullable r 1 = Normal VNull.
Proof.
  intros r.
  destruct (accessor_result_kind WideInteger r 0 (VBigInt 42)) as (Hstrict & _).
  destruct (accessor_result_kind Num r 0 (VNumber double_42)) as (_ & Hnullable & _).
  destruct (accessor_result_kind Text r 1 VNull) as (_ & _ & Hnull).
  split; [apply Hstrict; reflexivity |].
  split; [apply Hnullable; reflexivity |].
  split; [apply (proj1 Hnull); reflexivity |].
  apply (proj2 Hnull). reflexivity.
Defined.

(** An accessor fails in one way only: with its own [Error] and its own
    message.  In particular the [RangeError] of [BigInt] never escapes the
    wide-integer accessors, which call it on integral numbers only. *)
Theorem accessor_failure (k : kind) (r : Row.t) (i : Z) (e : exn) :
  (accessor k r i = Throw e -> e = JsError (mismatch_message k)) /\
  (accessorNullable k r i = Throw e ->
   e = JsError (mismatch_message_nullable k)).
Proof.
  split.
  - destruct k; cbn [accessor mismatch_message]; by_value r i; intros He;
      try discriminate; try (injection He as <-; reflexivity).
    unfold Number_isInteger, BigInt in He.
    destruct (integral_value n);
      [discriminate | injection He as <-; reflexivity].
  - destruct k; cbn [accessorNullable mismatch_message_nullable]; by_value r i;
      intros He; try discriminate; try (injection He as <-; reflexivity).
    unfold Number_isInteger, BigInt in He.
    destruct (integral_value n);
      [discriminate | injection He as <-; reflexivity].
Qed.

Lemma accessor_failure_witness :
  let r := Row.new [VNumber double_4_2] in
  JsError "Not an integer" = JsError (mismatch_message WideInteger) /\
  JsError "Not an integer or null" = JsError (mismatch_message_nullable WideInteger).
Proof.
  intros r. split.
  - apply (proj1 (accessor_failure WideInteger r 0 (JsError "Not an integer"))).
    reflexivity.
  - apply (proj2 (accessor_failure WideInteger r 0
                    (JsError "Not an integer or null"))).
    reflexivity.
Defined.

(** Two different non-nullable accessors succeed on the same column only as
    [number] and [bigint] on an integral number; any other pair excludes each
    other. *)
Theorem accessors_exclusive (k1 k2 : kind) (r : Row.t) (i : Z) (v1 v2 : value) :
  k1 <> k2 ->
  accessor k1 r i = Normal v1 ->
  accessor k2 r i = Normal v2 ->
  (k1 = Num /\ k2 = WideInteger \/ k1 = WideInteger /\ k2 = Num) /\
  exists n z, Row.get r i = VNumber n /\ denotes_integer n z.
Proof.
  intros Hneq H1 H2.
  assert (Hint : forall n, Row.get r i = VNumber n ->
                   Row.bigint r i <> Throw (JsError "Not an integer") ->
                   exists z, denotes_integer n z).
  { intros n Hget Hok. apply Number_isInteger_spec.
    unfold Row.bigint in Hok. rewrite Hget in Hok. cbn in Hok.
    destruct (Number_isInteger n); [reflexivity | now contradiction Hok]. }
  destruct k1, k2; try congruence; cbn [accessor] in *;
    try (by_value r i; discriminate).
  - split; [left; split; reflexivity |].
    destruct (Row.get r i) eqn:Hget;
      try (unfold Row.number in H1; rewrite Hget in H1; discriminate).
    destruct (Hint n eq_refl) as (z & Hz); [rewrite H2; discriminate |].
    exists n, z. split; [reflexivity | exact Hz].
  - split; [right; split; reflexivity |].
    destruct (Row.get r i) eqn:Hget;
      try (unfold Row.number in H2; rewrite Hget in H2; discriminate).
    destruct (Hint n eq_refl) as (z & Hz); [rewrite H1; discriminate |].
    exists n, z. split; [reflexivity | exact Hz].
Qed.

Lemma accessors_exclusive_witness :
  (Num = Num /\ WideInteger = WideInteger \/ Num = WideInteger /\ WideInteger = Num) /\
  exists n z, Row.get (Row.new [VNumber double_42]) 0 = VNumber n /\
              denotes_integer n z.
Proof.
  apply (accessors_exclusive Num WideInteger (Row.new [VNumber double_42]) 0
           (VNumber double_42) (VBigInt 42));
    [discriminate | reflexivity | reflexivity].
Defined.

(** * Further properties of [Rows] *)

Lemma next_fresh (this : Rows.t) :
  Rows.next (Rows.iterator this)
  = Rows.next (Rows.mkGenerator this (Rows.SuspendedYield 0)).
Proof. reflexivity. Qed.

Lemma advance_completed (this : Rows.t) (n : nat) :
  Rows.advance n (Rows.mkGenerator this Rows.Completed)
  = Rows.mkGenerator this Rows.Completed.
Proof.
  induction n as [| n IH]; [reflexivity |].
  cbn [Rows.advance]. exact IH.
Qed.

(** Where a generator stands after [n] more calls of [next()]. *)
Lemma advance_suspended (this : Rows.t) (n k : nat) :
  (k <= List.length (Rows.result this))%nat ->
  Rows.advance n (Rows.mkGenerator this (Rows.SuspendedYield k))
  = if (k + n <=? List.length (Rows.result this))%nat
    then Rows.mkGenerator this (Rows.SuspendedYield (k + n))
    else Rows.mkGenerator this Rows.Completed.
Proof.
  revert k. induction n as [| n IH]; intros k Hk.
  - cbn [Rows.advance]. rewrite Nat.add_0_r.
    apply Nat.leb_le in Hk. now rewrite Hk.
  - cbn [Rows.advance]. unfold Rows.next, Rows.resume.
    cbn [Rows.gen_state Rows.gen_this].
    destruct (nth_error (Rows.result this) k) as [item |] eqn:Hnth.
    + assert (Hlt : (k < List.length (Rows.result this))%nat)
        by (apply nth_error_Some; congruence).
      cbn [snd]. rewrite IH by lia.
      replace (S k + n)%nat with (k + S n)%nat by lia. reflexivity.
    + apply nth_error_None in Hnth. cbn [snd].
      rewrite advance_completed.
      assert (Hgt : (k + S n <=? List.length (Rows.result this))%nat = false)
        by (apply Nat.leb_gt; lia).
      now rewrite Hgt.
Qed.

Lemma advance_fresh (this : Rows.t) (n : nat) :
  Rows.next (Rows.advance n (Rows.iterator this))
  = Rows.next (Rows.advance n (Rows.mkGenerator this (Rows.SuspendedYield 0))).
Proof.
  destruct n as [| n]; [reflexivity |].
  cbn [Rows.advance]. now rewrite next_fresh.
Qed.

(** The call of [next()] that follows [n] earlier ones on a new iterator
    yields a [Row] on the tuple at position [n], and reports the end when
    there is no such tuple: an empty result ends at the first call. *)
Theorem next_nth (tuples : list (list value)) (n : nat) :
  fst (Rows.next (Rows.advance n (Rows.iterator (Rows.new tuples))))
  = match nth_error tuples n with
    | Some tuple => Rows.Yield (Row.new tuple)
    | None => Rows.Done
    end.
Proof.
  rewrite advance_fresh, advance_suspended by (cbn; lia).
  cbn [Rows.result Nat.add].
  destruct (n <=? List.length tuples)%nat eqn:Hn.
  - unfold Rows.next, Rows.resume. cbn [Rows.gen_state Rows.gen_this Rows.result].
    destruct (nth_error tuples n); reflexivity.
  - apply Nat.leb_gt in Hn.
    assert (Hnone : nth_error tuples n = None) by (apply nth_error_None; lia).
    now rewrite Hnone.
Qed.

(** A generator that has reported the end keeps reporting it, however often
    [next()] is called again. *)
Theorem generator_stays_done (g : Rows.Generator) (n : nat) :
  fst (Rows.next g) = Rows.Done ->
  fst (Rows.next (Rows.advance n (snd (Rows.next g)))) = Rows.Done.
Proof.
  intros Hdone.
  assert (Hstate : snd (Rows.next g)
                   = Rows.mkGenerator (Rows.gen_this g) Rows.Completed).
  { unfold Rows.next, Rows.resume in *.
    destruct g as [this [| k |]]; cbn [Rows.gen_state Rows.gen_this] in *.
    - destruct (nth_error (Rows.result this) 0); [discriminate | reflexivity].
    - destruct (nth_error (Rows.result this) k); [discriminate | reflexivity].
    - reflexivity. }
  rewrite Hstate, advance_completed. reflexivity.
Qed.

Lemma generator_stays_done_witness :
  fst (Rows.next
         (Rows.advance 3
            (snd (Rows.next (Rows.advance 2 (Rows.iterator (Rows.new demo_rows)))))))
  = Rows.Done.
Proof.
  apply (generator_stays_done
           (Rows.advance 2 (Rows.iterator (Rows.new demo_rows))) 3).
  reflexivity.
Defined.

(** An iterator is single-pass: after [n] calls of [next()], draining the
    same iterator yields the rows from position [n] on, not the earlier ones
    again (only a new iterator starts over). *)
Theorem drain_after_advance (tuples : list (list value)) (n fuel : nat) :
  (List.length tuples < fuel)%nat ->
  Rows.drain fuel (Rows.advance n (Rows.iterator (Rows.new tuples)))
  = Some (map Row.new (skipn n tuples)).
Proof.
  intros Hfuel.
  destruct fuel as [| fuel]; [lia |].
  cbn [Rows.drain]. rewrite advance_fresh.
  change (match Rows.next (Rows.advance n
                  (Rows.mkGenerator (Rows.new tuples) (Rows.SuspendedYield 0))) with
          | (Rows.Yield row, g') =>
              match Rows.drain fuel g' with
              | Some rows => Some (row :: rows)
              | None => None
              end
          | (Rows.Done, _) => Some []
          end)
    with (Rows.drain (S fuel)
            (Rows.advance n
               (Rows.mkGenerator (Rows.new tuples) (Rows.SuspendedYield 0)))).
  rewrite advance_suspended by (cbn; lia).
  cbn [Rows.result Nat.add].
  destruct (n <=? List.length tuples)%nat eqn:Hn.
  - apply (drain_suspended (Rows.new tuples) (S fuel) n). cbn [Rows.result]. lia.
  - apply Nat.leb_gt in Hn. rewrite skipn_all2 by lia. reflexivity.
Qed.

Lemma drain_after_advance_witness :
  Rows.drain 3 (Rows.advance 1 (Rows.iterator (Rows.new demo_rows)))
  = Some (map Row.new (skipn 1 demo_rows)).
Proof.
  apply (drain_after_advance demo_rows 1 3). cbn. lia.
Defined.

(** * Further properties of the facades *)

Section FacadeCalls.
Context {World ExecuteResult : Type}.
Variable sa : SyncAdapter.t World ExecuteResult.
Variable aa : AsyncAdapter.t World ExecuteResult.
Variable statement : String.string.
Variable params : list value.
Variable w : World.

Lemma sync_query_unfold :
  SyncDatabase.query (SyncDatabase.new sa) statement params w =
  match SyncAdapter.query sa statement params w with
  | (Normal rows, w') => (Normal (Rows.new rows), w')
  | (Throw v, w') => (Throw (Foreign v), w')
  end.
Proof.
  unfold SyncDatabase.query, bind, call, ret. cbn [SyncDatabase.adapter].
  destruct (SyncAdapter.query sa statement params w) as [[rows | v] w'];
    reflexivity.
Qed.

Lemma async_query_unfold :
  AsyncDatabase.query (AsyncDatabase.new aa) statement params w =
  match AsyncAdapter.query aa statement params w with
  | (Fulfilled rows, w') => (Fulfilled (Rows.new rows), w')
  | (Rejected v, w') => (Rejected (Foreign v), w')
  end.
Proof.
  unfold AsyncDatabase.query, async, bind, await, adopt, ret.
  cbn [AsyncDatabase.adapter].
  destruct (AsyncAdapter.query aa statement params w) as [[rows | v] w'];
    reflexivity.
Qed.

Lemma sync_execute_unfold :
  SyncDatabase.execute (SyncDatabase.new sa) statement params w =
  match SyncAdapter.execute sa statement params w with
  | (Normal r, w') => (Normal r, w')
  | (Throw v, w') => (Throw (Foreign v), w')
  end.
Proof. reflexivity. Qed.

Lemma async_execute_unfold :
  AsyncDatabase.execute (AsyncDatabase.new aa) statement params w =
  match AsyncAdapter.execute aa statement params w with
  | (Fulfilled r, w') => (Fulfilled r, w')
  | (Rejected v, w') => (Rejected (Foreign v), w')
  end.
Proof.
  unfold AsyncDatabase.execute, async, bind, await, adopt, ret.
  cbn [AsyncDatabase.adapter].
  destruct (AsyncAdapter.execute aa statement params w) as [[r | v] w'];
    reflexivity.
Qed.
End FacadeCalls.

(** Every operation of either facade leaves the world as one call of the
    adapter leaves it: [query], [queryOne] and [queryOneOrThrow] as one
    [adapter.query], [execute] as one [adapter.execute]; no operation calls
    the adapter a second time, whatever the first call gave. *)
Theorem facade_one_adapter_call {World ExecuteResult : Type}
  (sa : SyncAdapter.t World ExecuteResult) (aa : AsyncAdapter.t World ExecuteResult)
  (statement : String.string) (params : list value) (w : World) :
  let sdb := SyncDatabase.new sa in
  let adb := AsyncDatabase.new aa in
  (snd (SyncDatabase.query sdb statement params w)
   = snd (SyncAdapter.query sa statement params w) /\
   snd (SyncDatabase.queryOne sdb statement params w)
   = snd (SyncAdapter.query sa statement params w) /\
   snd (SyncDatabase.queryOneOrThrow sdb statement params w)
   = snd (SyncAdapter.query sa statement params w) /\
   snd (SyncDatabase.execute sdb statement params w)
   = snd (SyncAdapter.execute sa statement params w)) /\
  (snd (AsyncDatabase.query adb statement params w)
   = snd (AsyncAdapter.query aa statement params w) /\
   snd (AsyncDatabase.queryOne adb statement params w)
   = snd (AsyncAdapter.query aa statement params w) /\
   snd (AsyncDatabase.queryOneOrThrow adb statement params w)
   = snd (AsyncAdapter.query aa statement params w) /\
   snd (AsyncDatabase.execute adb statement params w)
   = snd (AsyncAdapter.execute aa statement params w)).
Proof.
  intros sdb adb. subst sdb adb.
  rewrite sync_query_unfold, sync_queryOne_unfold, sync_queryOneOrThrow_unfold,
    sync_execute_unfold, async_query_unfold, async_queryOne_unfold,
    async_queryOneOrThrow_unfold, async_execute_unfold.
  destruct (SyncAdapter.query sa statement params w) as [[[| t1 r1] | v1] w1];
    destruct (SyncAdapter.execute sa statement params w) as [[x1 | y1] w2];
    destruct (AsyncAdapter.query aa statement params w) as [[[| t2 r2] | v2] w3];
    destruct (AsyncAdapter.execute aa statement params w) as [[x2 | y2] w4];
    repeat split.
Qed.

(** The facades catch nothing and translate nothing: [query] and [queryOne]
    fail exactly when the adapter's [query] fails, with what the adapter
    threw or rejected with, and [queryOneOrThrow] fails with an adapter
    failure under the same condition; a failed query is never turned into
    [null], an empty [Rows] or NoRows. *)
Theorem facade_failures_are_adapter_failures {World ExecuteResult : Type}
  (sa : SyncAdapter.t World ExecuteResult) (aa : AsyncAdapter.t World ExecuteResult)
  (statement : String.string) (params : list value) (w : World) (e : exn) :
  let sdb := SyncDatabase.new sa in
  let adb := AsyncDatabase.new aa in
  let thrown v := fst (SyncAdapter.query sa statement params w) = Throw v in
  let rejected v := fst (AsyncAdapter.query aa statement params w) = Rejected v in
  (fst (SyncDatabase.query sdb statement params w) = Throw e <->
   exists v, e = Foreign v /\ thrown v) /\
  (fst (SyncDatabase.queryOne sdb statement params w) = Throw e <->
   exists v, e = Foreign v /\ thrown v) /\
  (forall v, fst (SyncDatabase.queryOneOrThrow sdb statement params w)
             = Throw (Foreign v) <-> thrown v) /\
  (fst (AsyncDatabase.query adb statement params w) = Rejected e <->
   exists v, e = Foreign v /\ rejected v) /\
  (fst (AsyncDatabase.queryOne adb statement params w) = Rejected e <->
   exists v, e = Foreign v /\ rejected v) /\
  (forall v, fst (AsyncDatabase.queryOneOrThrow adb statement params w)
             = Rejected (Foreign v) <-> rejected v).
Proof.
  intros sdb adb thrown rejected. subst sdb adb thrown rejected.
  rewrite sync_query_unfold, sync_queryOne_unfold, sync_queryOneOrThrow_unfold,
    async_query_unfold, async_queryOne_unfold, async_queryOneOrThrow_unfold.
  destruct (SyncAdapter.query sa statement params w) as [[[| t1 r1] | v1] w1];
    destruct (AsyncAdapter.query aa statement params w) as [[[| t2 r2] | v2] w3];
    cbn [fst]; unfold NoRows;
    repeat split; intros;
    repeat match goal with
           | H : exists _, _ |- _ => destruct H as (? & ? & ?)
           end;
    subst; try discriminate; try congruence;
    try (eexists; split; [| reflexivity]; congruence).
Qed.

Lemma facade_failures_are_adapter_failures_witness :
  fst (SyncDatabase.queryOne (SyncDatabase.new demo_sync_adapter) "DROP" [] 0%nat)
  = Throw (Foreign (VString "syntax error")) /\
  fst (AsyncDatabase.queryOneOrThrow (AsyncDatabase.new demo_async_adapter)
         "DROP" [] 0%nat)
  = Rejected (Foreign (VString "syntax error")) /\
  (exists v, Foreign (VString "syntax error") = Foreign v /\
             fst (AsyncAdapter.query demo_async_adapter "DROP" [] 0%nat) = Rejected v).
Proof.
  destruct (facade_failures_are_adapter_failures
              demo_sync_adapter demo_async_adapter "DROP" [] 0%nat
              (Foreign (VString "syntax error")))
    as (_ & HqueryOne & _ & Hquery & _ & HorThrow).
  split; [| split].
  - apply (proj2 HqueryOne). exists (VString "syntax error").
    split; reflexivity.
  - apply (proj2 (HorThrow (VString "syntax error"))). reflexivity.
  - apply (proj1 Hquery). reflexivity.
Defined.

(** [queryOne] is [query] cut to its first row: on the same call it returns
    the row that iterating the [Rows] of [query] yields first, returns [null]
    exactly when that [Rows] counts zero rows, and fails as [query] fails. *)
Theorem queryOne_is_first_of_query {World ExecuteResult : Type}
  (sa : SyncAdapter.t World ExecuteResult) (aa : AsyncAdapter.t World ExecuteResult)
  (statement : String.string) (params : list value) (w : World) :
  let sdb := SyncDatabase.new sa in
  let adb := AsyncDatabase.new aa in
  SyncDatabase.queryOne sdb statement params w
  = match SyncDatabase.query sdb statement params w with
    | (Normal rows, w') => (Normal (first_yield rows), w')
    | (Throw e, w') => (Throw e, w')
    end /\
  AsyncDatabase.queryOne adb statement params w
  = match AsyncDatabase.query adb statement params w with
    | (Fulfilled rows, w') => (Fulfilled (first_yield rows), w')
    | (Rejected e, w') => (Rejected e, w')
    end /\
  (forall rows w',
     SyncDatabase.query sdb statement params w = (Normal rows, w') ->
     (SyncDatabase.queryOne sdb statement params w = (Normal None, w') <->
      Rows.count rows = 0)) /\
  (forall rows w',
     AsyncDatabase.query adb statement params w = (Fulfilled rows, w') ->
     (AsyncDatabase.queryOne adb statement params w = (Fulfilled None, w') <->
      Rows.count rows = 0)).
Proof.
  intros sdb adb. subst sdb adb.
  rewrite sync_query_unfold, sync_queryOne_unfold,
    async_query_unfold, async_queryOne_unfold.
  destruct (SyncAdapter.query sa statement params w) as [[[| t1 r1] | v1] w1];
    destruct (AsyncAdapter.query aa statement params w) as [[[| t2 r2] | v2] w3];
    (split; [reflexivity |]); (split; [reflexivity |]);
    split; intros rows w' Hquery; try discriminate;
    injection Hquery as <- <-; unfold Rows.count; cbn [Rows.result List.length first_row];
    split; intros H; try reflexivity; try discriminate; lia.
Qed.

Lemma queryOne_is_first_of_query_witness :
  SyncDatabase.queryOne (SyncDatabase.new demo_sync_adapter) "EMPTY" [] 0%nat
  = (Normal None, 1%nat) /\
  Rows.count (Rows.new []) = 0.
Proof.
  destruct (queryOne_is_first_of_query demo_sync_adapter demo_async_adapter
              "EMPTY" [] 0%nat) as (_ & _ & Hsync & _).
  destruct (Hsync (Rows.new []) 1%nat eq_refl) as (Hcount & Hnull).
  split.
  - apply Hnull. reflexivity.
  - apply Hcount. reflexivity.
Defined.

(** From the adapter to the caller nothing is changed: when the adapter
    returns [tuples], the [Rows] of [query] counts them, iterating it gives
    one [Row] per tuple, and [get(j)] on the row at position [n] reads the
    adapter's own value [tuples[n][j]]. *)
Theorem query_reads_adapter_data {World ExecuteResult : Type}
  (sa : SyncAdapter.t World ExecuteResult) (aa : AsyncAdapter.t World ExecuteResult)
  (statement : String.string) (params : list value) (w w' : World)
  (tuples : list (list value)) (fuel n j : nat) (tuple : list value) (v : value) :
  (List.length tuples < fuel)%nat ->
  nth_error tuples n = Some tuple ->
  nth_error tuple j = Some v ->
  (SyncAdapter.query sa statement params w = (Normal tuples, w') ->
   exists rows all row,
     SyncDatabase.query (SyncDatabase.new sa) statement params w = (Normal rows, w') /\
     Rows.count rows = Z.of_nat (List.length tuples) /\
     Rows.drain fuel (Rows.iterator rows) = Some all /\
     List.length all = List.length tuples /\
     nth_error all n = Some row /\
     Row.get row (Z.of_nat j) = v) /\
  (AsyncAdapter.query aa statement params w = (Fulfilled tuples, w') ->
   exists rows all row,
     AsyncDatabase.query (AsyncDatabase.new aa) statement params w
     = (Fulfilled rows, w') /\
     Rows.count rows = Z.of_nat (List.length tuples) /\
     Rows.drain fuel (Rows.iterator rows) = Some all /\
     List.length all = List.length tuples /\
     nth_error all n = Some row /\
     Row.get row (Z.of_nat j) = v).
Proof.
  intros Hfuel Hn Hj.
  assert (Hread : Rows.count (Rows.new tuples) = Z.of_nat (List.length tuples) /\
                  Rows.drain fuel (Rows.iterator (Rows.new tuples))
                  = Some (map Row.new tuples) /\
                  List.length (map Row.new tuples) = List.length tuples /\
                  nth_error (map Row.new tuples) n = Some (Row.new tuple) /\
                  Row.get (Row.new tuple) (Z.of_nat j) = v).
  { split; [reflexivity |].
    split; [apply (drain_fresh (Rows.new tuples) fuel); exact Hfuel |].
    split; [apply length_map |].
    split; [now rewrite nth_error_map, Hn |].
    now apply get_in_range. }
  split; intros Hquery;
    exists (Rows.new tuples), (map Row.new tuples), (Row.new tuple).
  - rewrite sync_query_unfold, Hquery. split; [reflexivity | exact Hread].
  - rewrite async_query_unfold, Hquery. split; [reflexivity | exact Hread].
Qed.

Lemma query_reads_adapter_data_witness :
  exists rows all row,
    SyncDatabase.query (SyncDatabase.new demo_sync_adapter) "SELECT" [] 0%nat
    = (Normal rows, 1%nat) /\
    Rows.count rows = Z.of_nat (List.length demo_rows) /\
    Rows.drain 3 (Rows.iterator rows) = Some all /\
    List.length all = List.length demo_rows /\
    nth_error all 1 = Some row /\
    Row.get row (Z.of_nat 1) = VString "y".
Proof.
  apply (proj1 (query_reads_adapter_data demo_sync_adapter demo_async_adapter
                  "SELECT" [] 0%nat 1%nat demo_rows 3 1 1
                  [VBigInt 8; VString "y"] (VString "y")
                  ltac:(cbn; lia) eq_refl eq_refl)).
  reflexivity.
Defined.

(** [execute] hands the adapter's answer through: it returns (resolves to)
    exactly the result the adapter's [execute] returned for the same
    statement and parameters, and throws (rejects with) exactly what the
    adapter threw; the adapter's [query] plays no part in it. *)
Theorem execute_forwards {World ExecuteResult : Type}
  (sa : SyncAdapter.t World ExecuteResult) (aa : AsyncAdapter.t World ExecuteResult)
  (statement : String.string) (params : list value) (w w' : World) :
  let sdb := SyncDatabase.new sa in
  let adb := AsyncDatabase.new aa in
  (forall r, SyncDatabase.execute sdb statement params w = (Normal r, w') <->
             SyncAdapter.execute sa statement params w = (Normal r, w')) /\
  (forall e, SyncDatabase.execute sdb statement params w = (Throw e, w') <->
             exists v, e = Foreign v /\
                       SyncAdapter.execute sa statement params w = (Throw v, w')) /\
  (forall r, AsyncDatabase.execute adb statement params w = (Fulfilled r, w') <->
             AsyncAdapter.execute aa statement params w = (Fulfilled r, w')) /\
  (forall e, AsyncDatabase.execute adb statement params w = (Rejected e, w') <->
             exists v, e = Foreign v /\
                       AsyncAdapter.execute aa statement params w = (Rejected v, w')).
Proof.
  intros sdb adb. subst sdb adb.
  rewrite sync_execute_unfold, async_execute_unfold.
  destruct (SyncAdapter.execute sa statement params w) as [[x1 | y1] w2];
    destruct (AsyncAdapter.execute aa statement params w) as [[x2 | y2] w4];
    repeat split; intros;
    repeat match goal with
           | H : exists _, _ |- _ => destruct H as (? & ? & ?)
           end;
    subst; try discriminate; try congruence;
    match goal with
    | H : (_, _) = (_, _) |- _ =>
        injection H as <- <-; eexists; split; reflexivity
    end.
Qed.

Lemma execute_forwards_witness :
  SyncDatabase.execute (SyncDatabase.new demo_sync_adapter)
    "DELETE" [VNull; VNull] 0%nat = (Normal 2%nat, 1%nat) /\
  AsyncAdapter.execute demo_async_adapter "DELETE" [VNull] 0%nat
  = (Fulfilled 1%nat, 1%nat).
Proof.
  split.
  - destruct (execute_forwards demo_sync_adapter demo_async_adapter
                "DELETE" [VNull; VNull] 0%nat 1%nat) as (Hsync & _).
    apply (proj2 (Hsync 2%nat)). reflexivity.
  - destruct (execute_forwards demo_sync_adapter demo_async_adapter
                "DELETE" [VNull] 0%nat 1%nat) as (_ & _ & Hasync & _).
    apply (proj1 (Hasync 1%nat)). reflexivity.
Defined.
